(** * securedrop/db.py: the record model, the slug, the credential check

    A shallow embedding of [securedrop/db.py] (Python 2, SQLAlchemy
    declarative models).  Python [str] values are byte strings and are
    modelled by [string]; Python [int] by [Z]; a [dict] with string keys by
    [gmap string Z]; an attribute that may be absent on an instance by
    [option].  Code that raises, or that mutates an object or the session,
    lives in a state-and-exception monad [M St A]. *)

From Stdlib Require Import ZArith Ascii String List Bool Lia.
From stdpp Require Import base option gmap strings list fin_maps.

Local Open Scope Z_scope.

(** ** Python runtime: exceptions and the effect monad *)

(** The exceptions that the code of [db.py] can meet.  [HTTPException] is
    what a web framework's [abort(code)] raises, the usual
    [failure_method] handed to [get_one_or_else]. *)
Inductive exn : Type :=
  | AttributeError (attr : string)
  | KeyError (key : string)
  | UnboundLocalError (var : string)
  | NoResultFound (msg : string)
  | MultipleResultsFound (msg : string)
  | HTTPException (code : Z).

(** [str(e)]: for the two ORM exceptions, the only ones [db.py] formats,
    it is their message. *)
Definition exn_str (e : exn) : string :=
  match e with
  | AttributeError a => a
  | KeyError k => k
  | UnboundLocalError v =>
      "local variable '" +:+ v +:+ "' referenced before assignment"
  | NoResultFound m => m
  | MultipleResultsFound m => m
  | HTTPException c => EmptyString
  end.

Inductive Result (A : Type) : Type :=
  | Ok (a : A)
  | Raise (e : exn).
Arguments Ok {A} a.
Arguments Raise {A} e.

(** A computation over a mutable store [St]: it ends with a value or with
    a raised exception, and in both cases with the store as it left it. *)
Definition M (St A : Type) : Type := St -> Result A * St.

Definition ret {St A} (a : A) : M St A := fun s => (Ok a, s).

Definition bind {St A B} (m : M St A) (k : A -> M St B) : M St B :=
  fun s =>
    match m s with
    | (Ok a, s') => k a s'
    | (Raise e, s') => (Raise e, s')
    end.

Definition raise {St A} (e : exn) : M St A := fun s => (Raise e, s).

(** [try: body  except ...: handler]: the handler sees every exception; a
    clause list that does not cover [e] re-raises it. *)
Definition try_except {St A} (body : M St A) (handler : exn -> M St A)
  : M St A :=
  fun s =>
    match body s with
    | (Ok a, s') => (Ok a, s')
    | (Raise e, s') => handler e s'
    end.

Declare Scope py_scope.
Delimit Scope py_scope with py.
Notation "x <- m ;; k" := (bind m (fun x => k))
  (at level 100, m at next level, right associativity) : py_scope.
Notation "m ;;; k" := (bind m (fun _ => k))
  (at level 100, right associativity) : py_scope.
Local Open Scope py_scope.

(** [for x in xs: body x] *)
Fixpoint for_each {St A} (xs : list A) (body : A -> M St unit) : M St unit :=
  match xs with
  | [] => ret tt
  | x :: xs' => body x ;;; for_each xs' body
  end.

(** ** Python byte strings *)

(** [str.lower()] on a byte string in the C locale: only A-Z change. *)
Definition ascii_lower (c : ascii) : ascii :=
  let n := nat_of_ascii c in
  if ((65 <=? n) && (n <=? 90))%nat then ascii_of_nat (n + 32) else c.

Fixpoint str_lower (s : string) : string :=
  match s with
  | EmptyString => EmptyString
  | String c s' => String (ascii_lower c) (str_lower s')
  end.

(** [s.replace(a, b)] for one-character [a] and [b]. *)
Fixpoint str_replace_char (a b : ascii) (s : string) : string :=
  match s with
  | EmptyString => EmptyString
  | String c s' =>
      String (if Ascii.eqb c a then b else c) (str_replace_char a b s')
  end.

(** [c in s] for a one-character [c]. *)
Fixpoint char_in (c : ascii) (s : string) : bool :=
  match s with
  | EmptyString => false
  | String d s' => Ascii.eqb c d || char_in c s'
  end.

(** [''.join([c for c in s if p(c)])] *)
Fixpoint str_filter (p : ascii -> bool) (s : string) : string :=
  match s with
  | EmptyString => EmptyString
  | String c s' =>
      if p c then String c (str_filter p s') else str_filter p s'
  end.

(** [s.endswith(suffix)]: [s] is the suffix, or what follows its first
    character ends with it. *)
Fixpoint str_endswith (s suffix : string) : bool :=
  String.eqb s suffix ||
  match s with
  | EmptyString => false
  | String _ rest => str_endswith rest suffix
  end.

(** [needle in haystack] for strings: some suffix of the haystack starts
    with the needle. *)
Fixpoint str_contains (haystack needle : string) : bool :=
  String.prefix needle haystack ||
  match haystack with
  | EmptyString => false
  | String _ rest => str_contains rest needle
  end.

(** ** The models *)

Record Submission : Type := mkSubmission {
  sub_id : option Z;
  sub_source_id : option Z;
  filename : string;
  size : Z;
  downloaded : bool
}.

(** A [Source] instance.  [submissions] is the backref collection of the
    relationship declared on [Submission]; [docs_msgs_count] is the
    attribute that [documents_messages_count] sets on the instance, absent
    ([None]) until then. *)
Record Source : Type := mkSource {
  src_id : option Z;
  filesystem_id : option string;
  journalist_designation : string;
  flagged : bool;
  pending : bool;
  interaction_count : Z;
  submissions : list Submission;
  docs_msgs_count : option (gmap string Z)
}.

Definition set_journalist_designation (d : string) (s : Source) : Source :=
  mkSource (src_id s) (filesystem_id s) d (flagged s) (pending s)
           (interaction_count s) (submissions s) (docs_msgs_count s).

Definition set_submissions (subs : list Submission) (s : Source) : Source :=
  mkSource (src_id s) (filesystem_id s) (journalist_designation s)
           (flagged s) (pending s) (interaction_count s) subs
           (docs_msgs_count s).

Definition set_docs_msgs_count (d : gmap string Z) (s : Source) : Source :=
  mkSource (src_id s) (filesystem_id s) (journalist_designation s)
           (flagged s) (pending s) (interaction_count s) (submissions s)
           (Some d).

Definition valid_chars : string := "abcdefghijklmnopqrstuvwxyz1234567890-_".

(** [Source.journalist_filename] *)
Definition journalist_filename (self : Source) : string :=
  str_filter (fun c => char_in c valid_chars)
    (str_replace_char " " "_" (str_lower (journalist_designation self))).

(** Attribute reads and writes on [self]. *)
Definition getattr_docs_msgs_count : M Source (gmap string Z) :=
  fun self =>
    match docs_msgs_count self with
    | Some d => (Ok d, self)
    | None => (Raise (AttributeError "docs_msgs_count"), self)
    end.

Definition setattr_docs_msgs_count (d : gmap string Z) : M Source unit :=
  fun self => (Ok tt, set_docs_msgs_count d self).

Definition getattr_submissions : M Source (list Submission) :=
  fun self => (Ok (submissions self), self).

(** [self.docs_msgs_count[k] += 1]: the dict is read through the
    attribute, the item is read ([KeyError] when missing), and the sum is
    stored back into the same dict. *)
Definition incr_docs_msgs_count (k : string) : M Source unit :=
  d <- getattr_docs_msgs_count ;;
  match d !! k with
  | Some v => setattr_docs_msgs_count (<[k := v + 1]> d)
  | None => raise (KeyError k)
  end.

(** [Source.documents_messages_count] *)
Definition documents_messages_count : M Source (gmap string Z) :=
  try_except getattr_docs_msgs_count
    (fun e =>
       match e with
       | AttributeError _ =>
           setattr_docs_msgs_count
             (<["messages" := 0]> (<["documents" := 0]> ∅)) ;;;
           subs <- getattr_submissions ;;
           for_each subs (fun submission =>
             if str_endswith (filename submission) "msg.gpg"
             then incr_docs_msgs_count "messages"
             else if str_endswith (filename submission) "doc.zip.gpg"
             then incr_docs_msgs_count "documents"
             else ret tt) ;;;
           getattr_docs_msgs_count
       | _ => raise e
       end).

Record SourceStar : Type := mkSourceStar {
  star_id : option Z;
  star_source_id : option Z;
  starred : bool
}.

Record Journalist : Type := mkJournalist {
  journalist_id : option Z;
  username : string;
  pw_salt : string;
  pw_hash : string;
  is_admin : bool;
  created_on : option Z;
  last_access : option Z
}.

(** The values that can stand on the right of [star == other]. *)
Inductive PyObject : Type :=
  | ObjNone
  | ObjBool (b : bool)
  | ObjInt (z : Z)
  | ObjStr (s : string)
  | ObjSource (s : Source)
  | ObjSubmission (s : Submission)
  | ObjSourceStar (s : SourceStar)
  | ObjJournalist (j : Journalist).

(** What a rich comparison method returns. *)
Inductive CmpResult : Type :=
  | CmpBool (b : bool)
  | NotImplemented.

(** [==] on two nullable integer columns: [None == None], and two
    integers compare by value. *)
Definition opt_int_eq (a b : option Z) : bool :=
  match a, b with
  | None, None => true
  | Some x, Some y => x =? y
  | _, _ => false
  end.

(** [SourceStar.__eq__] *)
Definition SourceStar_eq (self : SourceStar) (other : PyObject) : CmpResult :=
  match other with
  | ObjSourceStar other =>
      CmpBool (opt_int_eq (star_source_id self) (star_source_id other)
               && opt_int_eq (star_id self) (star_id other)
               && Bool.eqb (starred self) (starred other))
  | _ => NotImplemented
  end.

(** ** The session: the journalists table, the error log, the entropy used *)

Record World : Type := mkWorld {
  journalists : list Journalist;
  error_log : list string;
  urandom_pos : nat
}.

(** A query object: [str(query)] and the rows it selects. *)
Record Query (A : Type) : Type := mkQuery {
  query_text : string;
  query_rows : World -> list A
}.
Arguments mkQuery {A} _ _.
Arguments query_text {A} _.
Arguments query_rows {A} _ _.

(** [query.one()], with the messages SQLAlchemy gives its exceptions. *)
Definition query_one {A} (q : Query A) : M World A :=
  fun w =>
    match query_rows q w with
    | [] => (Raise (NoResultFound "No row was found for one()"), w)
    | [row] => (Ok row, w)
    | _ :: _ :: _ =>
        (Raise (MultipleResultsFound "Multiple rows were found for one()"), w)
    end.

(** A logger is an object with an [error] method. *)
Record Logger : Type := mkLogger {
  logger_error : string -> M World unit
}.

(** The logger that appends to the session's error log. *)
Definition recording_logger : Logger :=
  mkLogger (fun msg w =>
    (Ok tt, mkWorld (journalists w) (error_log w ++ [msg]) (urandom_pos w))).

(** [get_one_or_else]: [return_value] is a local that stays unbound
    ([None]) when [query.one()] raises. *)
Definition get_one_or_else {A} (query : Query A) (logger : Logger)
    (failure_method : Z -> M World unit) : M World A :=
  return_value <-
    try_except (v <- query_one query ;; ret (Some v))
      (fun e =>
         match e with
         | MultipleResultsFound _ =>
             logger_error logger
               ("Found multiple while executing " +:+ query_text query
                +:+ " when one was expected: " +:+ exn_str e) ;;;
             failure_method 500 ;;;
             ret None
         | NoResultFound _ =>
             logger_error logger
               ("Found none when one was expected: " +:+ exn_str e) ;;;
             failure_method 404 ;;;
             ret None
         | _ => raise e
         end) ;;
  match return_value with
  | Some v => ret v
  | None => raise (UnboundLocalError "return_value")
  end.

(** [abort(code)], the failure method that never returns. *)
Definition abort (code : Z) : M World unit := raise (HTTPException code).

(** A failure method that returns normally. *)
Definition ignore_failure (code : Z) : M World unit := ret tt.

Record ScryptParams : Type := mkScryptParams {
  scrypt_N : Z;
  scrypt_r : Z;
  scrypt_p : Z
}.

Definition _SCRYPT_PARAMS : ScryptParams := mkScryptParams (2 ^ 14) 8 1.

(** What [login] returns: the user, [None] or [False]. *)
Inductive LoginReturn : Type :=
  | ReturnUser (user : Journalist)
  | ReturnNone
  | ReturnFalse.

Section Credentials.

(** [scrypt.hash(password, salt, N, r, p)] of the scrypt package and
    the byte stream behind [os.urandom]. *)
Variable scrypt_hash : string -> string -> Z -> Z -> Z -> string.
Variable entropy : nat -> ascii.

Fixpoint entropy_bytes (pos n : nat) : string :=
  match n with
  | O => EmptyString
  | S n' => String (entropy pos) (entropy_bytes (S pos) n')
  end.

(** [os.urandom(n)] *)
Definition os_urandom (n : nat) : M World string :=
  fun w =>
    (Ok (entropy_bytes (urandom_pos w) n),
     mkWorld (journalists w) (error_log w) (urandom_pos w + n)%nat).

(** [Journalist._gen_salt] *)
Definition _gen_salt (salt_bytes : nat) : M World string :=
  os_urandom salt_bytes.

(** [Journalist._scrypt_hash]; the password is already a [str]. *)
Definition _scrypt_hash (password salt : string)
    (params : option ScryptParams) : string :=
  let params :=
    match params with
    | Some p => p
    | None => _SCRYPT_PARAMS
    end in
  scrypt_hash password salt
    (scrypt_N params) (scrypt_r params) (scrypt_p params).

(** [Journalist.__init__]; the columns it does not set stay [None]. *)
Definition Journalist_init (username password : string) (is_admin : bool)
  : M World Journalist :=
  salt <- _gen_salt 32 ;;
  ret (mkJournalist None username salt (_scrypt_hash password salt None)
         is_admin None None).

(** [Journalist.valid_password] *)
Definition valid_password (self : Journalist) (password : string) : bool :=
  String.eqb (_scrypt_hash password (pw_salt self) None) (pw_hash self).

(** [Journalist.query.filter_by(username=username)] *)
Definition Journalist_query_filter_by_username (name : string)
  : Query Journalist :=
  mkQuery
    "SELECT journalists.* FROM journalists WHERE journalists.username = :username_1"
    (fun w => List.filter (fun j => String.eqb (username j) name) (journalists w)).

(** [Journalist.login]: [user] is [None] on the path that has already
    returned [None] from the [except] clause. *)
Definition login (username password : string) : M World LoginReturn :=
  user <-
    try_except
      (u <- query_one (Journalist_query_filter_by_username username) ;;
       ret (Some u))
      (fun e =>
         match e with
         | NoResultFound _ => ret None
         | _ => raise e
         end) ;;
  match user with
  | None => ret ReturnNone
  | Some user =>
      if valid_password user password then ret (ReturnUser user)
      else ret ReturnFalse
  end.

End Credentials.

(** ** Predicates and sample data used by the statements *)

(** The allow-set a-z, 0-9, hyphen, underscore, by character code. *)
Definition allowed_char (c : ascii) : bool :=
  let n := nat_of_ascii c in
  (((97 <=? n) && (n <=? 122)) || ((48 <=? n) && (n <=? 57))
   || (n =? 45) || (n =? 95))%nat.

Fixpoint str_forall (p : ascii -> bool) (s : string) : bool :=
  match s with
  | EmptyString => true
  | String c s' => p c && str_forall p s'
  end.

(** [Source.__init__]: a fresh instance, before any flush. *)
Definition Source_init (filesystem_id : option string)
    (journalist_designation : string) : Source :=
  mkSource None filesystem_id journalist_designation false true 0 [] None.

(** The dict [{'messages': m, 'documents': d}]. *)
Definition counts_dict (m d : Z) : gmap string Z :=
  <["messages" := m]> (<["documents" := d]> ∅).

(** How many of the submissions have a filename with the given suffix. *)
Definition count_endswith (suffix : string) (subs : list Submission) : Z :=
  Z.of_nat
    (List.length
       (List.filter (fun sub => str_endswith (filename sub) suffix) subs)).

(** A submission row of a source, as loaded from the table. *)
Definition submission_named (source : Source) (name : string) : Submission :=
  mkSubmission None (src_id source) name 0 false.

Definition sample_source : Source := Source_init (Some "fsid") "Ann A!".

Definition sample_submissions : list Submission :=
  [submission_named sample_source "1-msg.gpg";
   submission_named sample_source "2-doc.zip.gpg";
   submission_named sample_source "3-other.gpg"].

(** [logger.error(msg)] on the recording logger. *)
Definition log_error (msg : string) (w : World) : World :=
  mkWorld (journalists w) (error_log w ++ [msg]) (urandom_pos w).

(** A stand-in for scrypt in the examples (salt, then password) and a
    fixed entropy stream. *)
Definition sample_scrypt (password salt : string) (N r p : Z) : string :=
  salt +:+ password.

Definition sample_entropy (i : nat) : ascii := ascii_of_nat (i + 65).

Definition alice : Journalist :=
  mkJournalist (Some 1) "alice" "0123" (sample_scrypt "correct" "0123" 16384 8 1)
    false None None.

Definition alice_again : Journalist :=
  mkJournalist (Some 2) "alice" "4567" (sample_scrypt "other" "4567" 16384 8 1)
    true None None.

Definition sample_world : World := mkWorld [alice] [] 0.

Definition duplicated_world : World := mkWorld [alice; alice_again] [] 0.

(** ** The remaining methods and what their statements need *)

(** [SourceStar.__init__]: the id stays [None] until the flush. *)
Definition SourceStar_init (source : Source) (starred : bool) : SourceStar :=
  mkSourceStar None (src_id source) starred.

(** [Journalist.__repr__] *)
Definition Journalist_repr (self : Journalist) : string :=
  "<Journalist " +:+ username self
  +:+ (if is_admin self then " [admin]" else EmptyString) +:+ ">".

(** A logger whose [error] raises. *)
Definition failing_logger (e : exn) : Logger :=
  mkLogger (fun _ => raise e).

(** The characters of a designation that leave a character in the slug:
    letters of either case, digits, hyphen, underscore and space. *)
Definition slug_keeps (c : ascii) : bool :=
  let n := nat_of_ascii c in
  (((65 <=? n) && (n <=? 90)) || ((97 <=? n) && (n <=? 122))
   || ((48 <=? n) && (n <=? 57))
   || (n =? 45) || (n =? 95) || (n =? 32))%nat.

(** No row of the table carries the username. *)
Definition username_free (name : string) (rows : list Journalist) : bool :=
  forallb (fun j => negb (String.eqb (username j) name)) rows.

(** What the insert makes of a constructed record: the primary key is
    assigned, and [created_on] takes its default, the time of the insert,
    unless it was set. *)
Definition flushed (new_id now : Z) (j : Journalist) : Journalist :=
  mkJournalist
    (match journalist_id j with Some i => Some i | None => Some new_id end)
    (username j) (pw_salt j) (pw_hash j) (is_admin j)
    (match created_on j with Some t => Some t | None => Some now end)
    (last_access j).

(** The session after the record was added to the journalists table and
    committed. *)
Definition with_journalist (new_id now : Z) (j : Journalist) (w : World)
  : World :=
  mkWorld (journalists w ++ [flushed new_id now j]) (error_log w)
    (urandom_pos w).

(** A source that cached its counts while it had no submission, and now
    holds the three sample submissions. *)
Definition stale_sample_source : Source :=
  set_submissions sample_submissions
    (snd (documents_messages_count sample_source)).

(** * Properties *)

(** ** The effect monad *)

Lemma ret_run {St A} (a : A) (s : St) : ret a s = (Ok a, s).
Proof. reflexivity. Qed.

Lemma raise_run {St A} (e : exn) (s : St) : @raise St A e s = (Raise e, s).
Proof. reflexivity. Qed.

Lemma run_ok_inv {St A} (a b : A) (s t : St) :
  (Ok a, s) = (Ok b, t) -> b = a /\ t = s.
Proof. now intros [= -> ->]. Qed.

Lemma bind_ok {St A B} (m : M St A) (k : A -> M St B) (s s' : St) (a : A) :
  m s = (Ok a, s') -> bind m k s = k a s'.
Proof. intros H. unfold bind. now rewrite H. Qed.

Lemma bind_raise {St A B} (m : M St A) (k : A -> M St B) (s s' : St)
    (e : exn) :
  m s = (Raise e, s') -> bind m k s = (Raise e, s').
Proof. intros H. unfold bind. now rewrite H. Qed.

(** ** IdentityCodec: [journalist_filename] *)

Lemma char_in_valid_chars (c : ascii) :
  char_in c valid_chars = allowed_char c.
Proof.
  destruct c as [[] [] [] [] [] [] [] []]; reflexivity.
Qed.

Lemma ascii_lower_allowed (c : ascii) :
  allowed_char c = true -> ascii_lower c = c.
Proof.
  destruct c as [[] [] [] [] [] [] [] []]; vm_compute;
    intros H; try reflexivity; discriminate H.
Qed.

Lemma space_not_allowed (c : ascii) :
  allowed_char c = true -> Ascii.eqb c " " = false.
Proof.
  destruct c as [[] [] [] [] [] [] [] []]; vm_compute;
    intros H; try reflexivity; discriminate H.
Qed.

Lemma str_filter_forall (p : ascii -> bool) (s : string) :
  str_forall p (str_filter p s) = true.
Proof.
  induction s as [|c s IH]; simpl; [reflexivity|].
  destruct (p c) eqn:Hp; simpl; [rewrite Hp|]; exact IH.
Qed.

Lemma str_forall_ext (p q : ascii -> bool) (s : string) :
  (forall c, p c = q c) -> str_forall p s = str_forall q s.
Proof.
  intros Hpq. induction s as [|c s IH]; simpl; [reflexivity|].
  now rewrite Hpq, IH.
Qed.

Lemma str_lower_fixed (s : string) :
  str_forall allowed_char s = true -> str_lower s = s.
Proof.
  induction s as [|c s IH]; simpl; [reflexivity|].
  intros [Hc Hs]%andb_prop.
  now rewrite ascii_lower_allowed, IH.
Qed.

Lemma str_replace_space_fixed (s : string) :
  str_forall allowed_char s = true -> str_replace_char " " "_" s = s.
Proof.
  induction s as [|c s IH]; simpl; [reflexivity|].
  intros [Hc Hs]%andb_prop.
  now rewrite space_not_allowed, IH.
Qed.

Lemma str_filter_fixed (p : ascii -> bool) (s : string) :
  str_forall p s = true -> str_filter p s = s.
Proof.
  induction s as [|c s IH]; simpl; [reflexivity|].
  intros [Hc Hs]%andb_prop.
  now rewrite Hc, IH.
Qed.

Lemma journalist_filename_allowed (self : Source) :
  str_forall allowed_char (journalist_filename self) = true.
Proof.
  unfold journalist_filename.
  rewrite <- (str_forall_ext _ _ _ char_in_valid_chars).
  apply str_filter_forall.
Qed.

(** C6: the slug derivation is idempotent (deriving the slug of a source
    whose designation is already a slug returns that slug unchanged), and
    every character of its output is in a-z, 0-9, hyphen, underscore. *)
Theorem journalist_filename_idempotent_and_safe (self : Source) :
  journalist_filename
    (set_journalist_designation (journalist_filename self) self)
  = journalist_filename self
  /\ str_forall allowed_char (journalist_filename self) = true.
Proof.
  pose proof (journalist_filename_allowed self) as Hsafe.
  split; [|exact Hsafe].
  unfold journalist_filename at 1. simpl journalist_designation.
  rewrite (str_lower_fixed _ Hsafe), (str_replace_space_fixed _ Hsafe).
  apply str_filter_fixed.
  now rewrite (str_forall_ext _ _ _ char_in_valid_chars).
Qed.

(** C7 as stated fails: the slug of "Ann A!" is not "anna". *)
Lemma journalist_filename_ann_a_not_anna :
  journalist_filename (Source_init None "Ann A!") <> "anna".
Proof. vm_compute. discriminate. Qed.

(** C7, amended: the slug of the display label "Ann A!" is "ann_a" (the
    space becomes an underscore, which is in the allow-set; only the
    exclamation mark is dropped). *)
Theorem journalist_filename_ann_a :
  journalist_filename (Source_init None "Ann A!") = "ann_a".
Proof. reflexivity. Qed.

(** ** The documents/messages aggregate *)

Example endswith_msg : str_endswith "1-msg.gpg" "msg.gpg" = true.
Proof. reflexivity. Qed.

Example endswith_doc_not_msg : str_endswith "2-doc.zip.gpg" "msg.gpg" = false.
Proof. reflexivity. Qed.

Example endswith_longer_suffix : str_endswith "gpg" "msg.gpg" = false.
Proof. reflexivity. Qed.

Example sample_counts_run :
  fst (documents_messages_count (set_submissions sample_submissions sample_source))
  = Ok (counts_dict 1 1).
Proof. vm_compute. reflexivity. Qed.

(** No filename has both suffixes, so the [elif] never hides a document. *)
Lemma endswith_msg_not_doc (s : string) :
  str_endswith s "msg.gpg" = true -> str_endswith s "doc.zip.gpg" = false.
Proof.
  induction s as [|c s IH]; [discriminate|].
  cbn [str_endswith]. intros H.
  apply orb_true_iff in H as [H|H].
  - apply String.eqb_eq in H. injection H as -> ->. reflexivity.
  - destruct (String.eqb (String c s) "doc.zip.gpg") eqn:E.
    + apply String.eqb_eq in E. injection E as _ ->. discriminate H.
    + simpl. exact (IH H).
Qed.

Lemma count_endswith_cons (suffix : string) (sub : Submission)
    (subs : list Submission) :
  count_endswith suffix (sub :: subs)
  = (if str_endswith (filename sub) suffix then 1 else 0)
    + count_endswith suffix subs.
Proof.
  unfold count_endswith. simpl.
  destruct (str_endswith (filename sub) suffix); simpl List.length; lia.
Qed.

Lemma counts_dict_incr_messages (m d : Z) :
  <["messages" := m + 1]> (counts_dict m d) = counts_dict (m + 1) d.
Proof. unfold counts_dict. apply insert_insert_eq. Qed.

Lemma counts_dict_incr_documents (m d : Z) :
  <["documents" := d + 1]> (counts_dict m d) = counts_dict m (d + 1).
Proof.
  unfold counts_dict.
  rewrite insert_insert_ne by discriminate.
  now rewrite insert_insert_eq.
Qed.

Lemma set_docs_msgs_count_twice (d1 d2 : gmap string Z) (self : Source) :
  set_docs_msgs_count d1 (set_docs_msgs_count d2 self)
  = set_docs_msgs_count d1 self.
Proof. reflexivity. Qed.

(** The loop of [documents_messages_count], started on an instance whose
    dict holds [m] and [d]: it never raises, and it adds the two counts. *)
Lemma count_loop_run (subs : list Submission) :
  forall (self : Source) (m d : Z),
    docs_msgs_count self = Some (counts_dict m d) ->
    for_each subs (fun submission =>
      if str_endswith (filename submission) "msg.gpg"
      then incr_docs_msgs_count "messages"
      else if str_endswith (filename submission) "doc.zip.gpg"
      then incr_docs_msgs_count "documents"
      else ret tt) self
    = (Ok tt,
       set_docs_msgs_count
         (counts_dict (m + count_endswith "msg.gpg" subs)
                      (d + count_endswith "doc.zip.gpg" subs)) self).
Proof.
  induction subs as [|sub subs IH]; intros self m d Hd.
  - cbn [for_each]. unfold ret, count_endswith. simpl.
    rewrite !Z.add_0_r. destruct self; simpl in *. now rewrite Hd.
  - cbn [for_each]. rewrite !count_endswith_cons. unfold bind at 1.
    destruct (str_endswith (filename sub) "msg.gpg") eqn:Emsg.
    + rewrite (endswith_msg_not_doc _ Emsg).
      unfold incr_docs_msgs_count, bind, getattr_docs_msgs_count.
      rewrite Hd. unfold counts_dict at 1. rewrite lookup_insert_eq.
      unfold setattr_docs_msgs_count.
      rewrite (IH _ (m + 1) d).
      * rewrite set_docs_msgs_count_twice.
        now rewrite Z.add_0_l, Z.add_assoc.
      * cbn [docs_msgs_count set_docs_msgs_count].
        now rewrite counts_dict_incr_messages.
    + destruct (str_endswith (filename sub) "doc.zip.gpg") eqn:Edoc.
      * unfold incr_docs_msgs_count, bind, getattr_docs_msgs_count.
        rewrite Hd. unfold counts_dict at 1.
        rewrite lookup_insert_ne by discriminate. rewrite lookup_insert_eq.
        unfold setattr_docs_msgs_count.
        rewrite (IH _ m (d + 1)).
        -- rewrite set_docs_msgs_count_twice.
           now rewrite Z.add_0_l, Z.add_assoc.
        -- cbn [docs_msgs_count set_docs_msgs_count].
           now rewrite counts_dict_incr_documents.
      * rewrite ret_run. rewrite (IH _ m d Hd).
        now rewrite !Z.add_0_l.
Qed.

(** The first call on an instance computes both counts and stores them. *)
Lemma documents_messages_count_first_call (self : Source) :
  docs_msgs_count self = None ->
  documents_messages_count self
  = (Ok (counts_dict (count_endswith "msg.gpg" (submissions self))
                     (count_endswith "doc.zip.gpg" (submissions self))),
     set_docs_msgs_count
       (counts_dict (count_endswith "msg.gpg" (submissions self))
                    (count_endswith "doc.zip.gpg" (submissions self))) self).
Proof.
  intros Hnone.
  unfold documents_messages_count, try_except, getattr_docs_msgs_count at 1.
  rewrite Hnone. unfold bind at 1. unfold setattr_docs_msgs_count at 1.
  unfold bind at 1. unfold getattr_submissions.
  unfold bind at 1.
  rewrite (count_loop_run _ _ 0 0) by reflexivity.
  unfold getattr_docs_msgs_count. simpl.
  reflexivity.
Qed.

(** A later call returns the stored dict and leaves the instance alone. *)
Lemma documents_messages_count_cached (self : Source) (c : gmap string Z) :
  docs_msgs_count self = Some c ->
  documents_messages_count self = (Ok c, self).
Proof.
  intros Hc.
  unfold documents_messages_count, try_except, getattr_docs_msgs_count.
  now rewrite Hc.
Qed.

(** C4 as stated fails: an instance that cached its counts before the
    submissions "1-msg.gpg", "2-doc.zip.gpg", "3-other.gpg" arrived
    answers messages 0, documents 0 for that collection, not 1 and 1. *)
Lemma documents_messages_count_sample_stale :
  List.map filename (submissions stale_sample_source)
  = ["1-msg.gpg"; "2-doc.zip.gpg"; "3-other.gpg"]
  /\ fst (documents_messages_count stale_sample_source)
     = Ok (counts_dict 0 0)
  /\ fst (documents_messages_count stale_sample_source)
     <> Ok (counts_dict 1 1).
Proof.
  split; [reflexivity|]. split; [reflexivity|].
  intros H.
  apply (f_equal (fun r => match r with
                           | Ok d => d !! "messages"
                           | Raise _ => None
                           end)) in H.
  vm_compute in H. discriminate H.
Qed.

(** C4, amended: on an instance that has not cached the aggregate yet,
    [documents_messages_count] returns the dict whose "messages" entry is
    the number of submissions with a filename ending in "msg.gpg" and whose
    "documents" entry is the number ending in "doc.zip.gpg" (any other
    filename adds to neither); for the filenames "1-msg.gpg",
    "2-doc.zip.gpg", "3-other.gpg" that is messages 1, documents 1. *)
Theorem documents_messages_count_by_suffix (self : Source)
    (Hfresh : docs_msgs_count self = None) :
  fst (documents_messages_count self)
  = Ok (counts_dict (count_endswith "msg.gpg" (submissions self))
                    (count_endswith "doc.zip.gpg" (submissions self)))
  /\ (List.map filename (submissions self)
      = ["1-msg.gpg"; "2-doc.zip.gpg"; "3-other.gpg"] ->
      fst (documents_messages_count self) = Ok (counts_dict 1 1)).
Proof.
  rewrite (documents_messages_count_first_call self Hfresh).
  split; [reflexivity|].
  intros Hnames. cbn [fst]. do 2 f_equal.
  - unfold count_endswith.
    destruct (submissions self) as [|a [|b [|c [|? ?]]]]; try discriminate.
    injection Hnames as Ha Hb Hc. cbn [List.filter]. now rewrite Ha, Hb, Hc.
  - unfold count_endswith.
    destruct (submissions self) as [|a [|b [|c [|? ?]]]]; try discriminate.
    injection Hnames as Ha Hb Hc. cbn [List.filter]. now rewrite Ha, Hb, Hc.
Qed.

Lemma documents_messages_count_by_suffix_witness :
  docs_msgs_count (set_submissions sample_submissions sample_source) = None
  /\ fst (documents_messages_count
            (set_submissions sample_submissions sample_source))
     = Ok (counts_dict 1 1).
Proof.
  split; [reflexivity|].
  apply (documents_messages_count_by_suffix
           (set_submissions sample_submissions sample_source));
    reflexivity.
Defined.

(** C5 as stated fails: after a first call on an instance without
    submissions, a message is added to the collection; the second call
    still answers messages 0, not the recomputed messages 1. *)
Lemma documents_messages_count_stale :
  let first := documents_messages_count sample_source in
  let changed :=
    set_submissions [submission_named sample_source "1-msg.gpg"] (snd first) in
  count_endswith "msg.gpg" (submissions changed) = 1
  /\ fst (documents_messages_count changed) = Ok (counts_dict 0 0)
  /\ fst (documents_messages_count changed)
     <> Ok (counts_dict (count_endswith "msg.gpg" (submissions changed))
                        (count_endswith "doc.zip.gpg" (submissions changed))).
Proof.
  cbv zeta. split; [reflexivity|]. split; [reflexivity|].
  intros H.
  apply (f_equal (fun r => match r with
                           | Ok d => d !! "messages"
                           | Raise _ => None
                           end)) in H.
  vm_compute in H. discriminate H.
Qed.

(** C5, amended: on every in-memory Source instance the first call of
    [documents_messages_count] always returns a dict (computed from the
    collection when the instance has none cached) and every later call
    on that instance returns that same dict, whatever the Submission
    collection has become in between: the cached counts are never
    recomputed. *)
Theorem documents_messages_count_memoized (self : Source)
    (subs' : list Submission) :
  let first := documents_messages_count self in
  let expected :=
    match docs_msgs_count self with
    | Some cached => cached
    | None =>
        counts_dict (count_endswith "msg.gpg" (submissions self))
                    (count_endswith "doc.zip.gpg" (submissions self))
    end in
  fst first = Ok expected
  /\ fst (documents_messages_count (set_submissions subs' (snd first)))
     = Ok expected.
Proof.
  cbv zeta. destruct (docs_msgs_count self) as [c|] eqn:Hc.
  - rewrite (documents_messages_count_cached self c Hc). cbn [fst snd].
    split; [reflexivity|].
    rewrite (documents_messages_count_cached _ c); [reflexivity|exact Hc].
  - rewrite (documents_messages_count_first_call self Hc). cbn [fst snd].
    split; [reflexivity|].
    now erewrite documents_messages_count_cached by reflexivity.
Qed.

(** ** SourceStar equality *)

Lemma opt_int_eq_true (a b : option Z) : opt_int_eq a b = true <-> a = b.
Proof.
  destruct a as [x|], b as [y|]; simpl; split; intros H;
    try discriminate; try reflexivity.
  - apply Z.eqb_eq in H. now subst.
  - injection H as ->. apply Z.eqb_refl.
Qed.

(** C9: for two SourceStar instances, [__eq__] answers a boolean, and it
    answers [True] exactly when the source references, the record ids and
    the starred states all match; for a value of any other kind it
    answers [NotImplemented], it does not affirm equality. *)
Theorem SourceStar_eq_spec (a b : SourceStar) (other : PyObject) :
  (SourceStar_eq a (ObjSourceStar b) = CmpBool true
   <-> star_source_id a = star_source_id b
       /\ star_id a = star_id b
       /\ starred a = starred b)
  /\ (SourceStar_eq a (ObjSourceStar b) = CmpBool true
      \/ SourceStar_eq a (ObjSourceStar b) = CmpBool false)
  /\ match other with
     | ObjSourceStar _ => True
     | _ => SourceStar_eq a other = NotImplemented
     end.
Proof.
  split; [|split].
  - cbn [SourceStar_eq]. split.
    + intros H. injection H as H.
      apply andb_prop in H as [H Hst]. apply andb_prop in H as [Hsrc Hid].
      apply opt_int_eq_true in Hsrc. apply opt_int_eq_true in Hid.
      apply Bool.eqb_prop in Hst. auto.
    + intros (Hsrc & Hid & Hst). rewrite Hsrc, Hid, Hst. f_equal.
      rewrite Bool.eqb_reflx.
      rewrite !(proj2 (opt_int_eq_true _ _) eq_refl). reflexivity.
  - cbn [SourceStar_eq].
    destruct (opt_int_eq _ _ && opt_int_eq _ _ && Bool.eqb _ _); auto.
  - destruct other; cbn [SourceStar_eq]; auto.
Qed.

Example SourceStar_eq_unsaved :
  SourceStar_eq (mkSourceStar None (Some 7) true)
                (ObjSourceStar (mkSourceStar None (Some 7) true))
  = CmpBool true.
Proof. reflexivity. Qed.

Example SourceStar_eq_other_kind :
  SourceStar_eq (mkSourceStar (Some 1) (Some 7) true) (ObjInt 1)
  = NotImplemented.
Proof. reflexivity. Qed.

(** ** Credentials and login *)

Section CredentialProperties.

Variable scrypt_hash : string -> string -> Z -> Z -> Z -> string.
Variable entropy : nat -> ascii.

Lemma entropy_bytes_length (pos n : nat) :
  String.length (entropy_bytes entropy pos n) = n.
Proof.
  revert pos. induction n as [|n IH]; intros pos; simpl; [reflexivity|].
  now rewrite IH.
Qed.

(** The constructor never raises; it draws a 32-byte salt and hashes the
    password under it with the default parameters. *)
Lemma Journalist_init_run (name password : string) (admin : bool) (w : World) :
  Journalist_init scrypt_hash entropy name password admin w
  = (Ok (mkJournalist None name
           (entropy_bytes entropy (urandom_pos w) 32)
           (_scrypt_hash scrypt_hash password
              (entropy_bytes entropy (urandom_pos w) 32) None)
           admin None None),
     mkWorld (journalists w) (error_log w) (urandom_pos w + 32)%nat).
Proof. reflexivity. Qed.

Lemma valid_password_true_iff (j : Journalist) (p : string) :
  valid_password scrypt_hash j p = true
  <-> _scrypt_hash scrypt_hash p (pw_salt j) None = pw_hash j.
Proof. unfold valid_password. apply String.eqb_eq. Qed.

(** [login] by the rows that carry the username. *)
Lemma login_run (name password : string) (w : World) :
  login scrypt_hash name password w
  = (match List.filter (fun j => String.eqb (username j) name)
             (journalists w) with
     | [] => Ok ReturnNone
     | [user] =>
         if valid_password scrypt_hash user password
         then Ok (ReturnUser user) else Ok ReturnFalse
     | _ :: _ :: _ =>
         Raise (MultipleResultsFound "Multiple rows were found for one()")
     end, w).
Proof.
  unfold login, bind, try_except, query_one.
  cbn [query_rows Journalist_query_filter_by_username].
  destruct (List.filter _ (journalists w)) as [|user [|second rest]].
  - reflexivity.
  - rewrite ret_run.
    destruct (valid_password scrypt_hash user password); reflexivity.
  - reflexivity.
Qed.

End CredentialProperties.

(** C1: a freshly constructed Journalist stores the credential hash of
    (password, stored salt), so [valid_password] accepts the password it
    was built with; and on any Journalist [valid_password(p)] is false
    when the hash of [p] under the stored salt differs from the stored
    hash. *)
Theorem Journalist_hash_then_verify
    (scrypt_hash : string -> string -> Z -> Z -> Z -> string)
    (entropy : nat -> ascii)
    (name password : string) (admin : bool) (w : World)
    (j : Journalist) (p : string) :
  (exists fresh,
      fst (Journalist_init scrypt_hash entropy name password admin w)
      = Ok fresh
      /\ pw_hash fresh
         = _scrypt_hash scrypt_hash password (pw_salt fresh) None
      /\ valid_password scrypt_hash fresh password = true)
  /\ (_scrypt_hash scrypt_hash p (pw_salt j) None <> pw_hash j ->
      valid_password scrypt_hash j p = false).
Proof.
  split.
  - rewrite Journalist_init_run. eexists. split; [reflexivity|].
    cbn [pw_hash pw_salt]. split; [reflexivity|].
    apply valid_password_true_iff. reflexivity.
  - intros Hdiff.
    destruct (valid_password scrypt_hash j p) eqn:E; [|reflexivity].
    apply valid_password_true_iff in E. contradiction.
Qed.

Lemma Journalist_hash_then_verify_witness :
  _scrypt_hash sample_scrypt "wrong" (pw_salt alice) None <> pw_hash alice
  /\ valid_password sample_scrypt alice "wrong" = false.
Proof.
  assert (H : _scrypt_hash sample_scrypt "wrong" (pw_salt alice) None
              <> pw_hash alice) by (vm_compute; discriminate).
  split; [exact H|].
  exact (proj2 (Journalist_hash_then_verify sample_scrypt sample_entropy
                  "alice" "correct" false sample_world alice "wrong") H).
Defined.

Example fresh_journalist_accepts_password :
  match fst (Journalist_init sample_scrypt sample_entropy
               "carol" "s3cret" false sample_world) with
  | Ok carol =>
      valid_password sample_scrypt carol "s3cret" = true
      /\ valid_password sample_scrypt carol "s3cres" = false
      /\ String.length (pw_salt carol) = 32%nat
  | Raise _ => False
  end.
Proof. vm_compute. auto. Qed.

(** C2: [login] has four outcomes, decided by the rows that carry the
    username: none, it returns [None] (NotFound); exactly one whose
    password verifies, it returns that record; exactly one whose password
    does not verify, it returns [False] (InvalidCredentials, a value
    different from [None]); two or more, [MultipleResultsFound] leaves
    [login] (IntegrityConflict) and no record is returned. *)
Theorem login_outcomes
    (scrypt_hash : string -> string -> Z -> Z -> Z -> string)
    (name password : string) (w : World) :
  match List.filter (fun j => String.eqb (username j) name)
          (journalists w) with
  | [] => fst (login scrypt_hash name password w) = Ok ReturnNone
  | [user] =>
      fst (login scrypt_hash name password w)
      = (if valid_password scrypt_hash user password
         then Ok (ReturnUser user) else Ok ReturnFalse)
  | _ :: _ :: _ =>
      exists msg,
        fst (login scrypt_hash name password w)
        = Raise (MultipleResultsFound msg)
  end
  /\ ReturnFalse <> ReturnNone.
Proof.
  split; [|discriminate].
  rewrite login_run.
  destruct (List.filter _ (journalists w)) as [|user [|second rest]];
    cbn [fst]; eauto.
Qed.

Example login_alice_correct :
  fst (login sample_scrypt "alice" "correct" sample_world)
  = Ok (ReturnUser alice).
Proof. reflexivity. Qed.

Example login_alice_wrong :
  fst (login sample_scrypt "alice" "wrong" sample_world) = Ok ReturnFalse.
Proof. reflexivity. Qed.

Example login_bob_unknown :
  fst (login sample_scrypt "bob" "anything" sample_world) = Ok ReturnNone.
Proof. reflexivity. Qed.

Example login_alice_duplicated :
  fst (login sample_scrypt "alice" "correct" duplicated_world)
  = Raise (MultipleResultsFound "Multiple rows were found for one()").
Proof. reflexivity. Qed.

(** C8: [login] writes nothing: whatever the outcome, the session after
    the call is the session before it, so every stored Journalist record
    (salt, hash and last_access included) is unchanged; and
    [valid_password] is a pure check of its record. *)
Theorem login_no_writes
    (scrypt_hash : string -> string -> Z -> Z -> Z -> string)
    (name password : string) (w : World) :
  snd (login scrypt_hash name password w) = w
  /\ journalists (snd (login scrypt_hash name password w)) = journalists w
  /\ List.map last_access
       (journalists (snd (login scrypt_hash name password w)))
     = List.map last_access (journalists w).
Proof.
  rewrite login_run. cbn [snd]. auto.
Qed.

(** ** The single-result helper *)

Lemma prefix_append (q b : string) : String.prefix q (q +:+ b) = true.
Proof.
  induction q as [|c q IH]; simpl; [now destruct b|].
  destruct (ascii_dec c c) as [_|Hne]; [exact IH|now destruct Hne].
Qed.

Lemma str_contains_of_prefix (h q : string) :
  String.prefix q h = true -> str_contains h q = true.
Proof. intros H. destruct h; cbn [str_contains]; now rewrite H. Qed.

(** A text that was spliced into a message is found in it. *)
Lemma str_contains_spliced (a q b : string) :
  str_contains (a +:+ q +:+ b) q = true.
Proof.
  induction a as [|c a IH].
  - change (EmptyString +:+ q +:+ b) with (q +:+ b).
    apply str_contains_of_prefix, prefix_append.
  - change (String c a +:+ q +:+ b) with (String c (a +:+ q +:+ b)).
    cbn [str_contains]. rewrite IH. apply orb_true_r.
Qed.

(** What runs after [query.one()] raised: [return_value] is still
    unbound when the handlers fall through to the [return]. *)
Lemma unbound_after_handlers {A} (m n : M World unit) (w : World) :
  bind (bind m (fun _ => bind n (fun _ => ret (@None A))))
       (fun return_value =>
          match return_value with
          | Some v => ret v
          | None => raise (UnboundLocalError "return_value")
          end) w
  = bind m (fun _ => bind n (fun _ =>
      raise (UnboundLocalError "return_value"))) w.
Proof.
  unfold bind. destruct (m w) as [[[]|e] w1]; [|reflexivity].
  destruct (n w1) as [[[]|e] w2]; reflexivity.
Qed.

(** [get_one_or_else] by the number of rows of the query. *)
Lemma get_one_or_else_run {A} (q : Query A) (logger : Logger)
    (failure_method : Z -> M World unit) (w : World) :
  get_one_or_else q logger failure_method w
  = match query_rows q w with
    | [] =>
        (logger_error logger
           "Found none when one was expected: No row was found for one()" ;;;
         failure_method 404 ;;;
         raise (UnboundLocalError "return_value")) w
    | [row] => (Ok row, w)
    | _ :: _ :: _ =>
        (logger_error logger
           ("Found multiple while executing " +:+ query_text q
            +:+ " when one was expected: Multiple rows were found for one()") ;;;
         failure_method 500 ;;;
         raise (UnboundLocalError "return_value")) w
    end.
Proof.
  unfold get_one_or_else.
  destruct (query_rows q w) as [|row [|second rest]] eqn:Hrows.
  - rewrite <- unbound_after_handlers.
    unfold bind at 1 3, try_except, query_one. unfold bind at 1.
    rewrite Hrows. reflexivity.
  - unfold bind, try_except, query_one. rewrite Hrows. reflexivity.
  - rewrite <- unbound_after_handlers.
    unfold bind at 1 3, try_except, query_one. unfold bind at 1.
    rewrite Hrows. reflexivity.
Qed.

Lemma recording_logger_run (msg : string) (w : World) :
  logger_error recording_logger msg w = (Ok tt, log_error msg w).
Proof. reflexivity. Qed.

(** Once the logger and the failure method have been reached, no record
    comes back, whatever they do. *)
Lemma handlers_return_no_record {A} (m n : M World unit) (w : World) (v : A) :
  fst ((m ;;; n ;;; raise (UnboundLocalError "return_value")) w) <> Ok v.
Proof.
  unfold bind. destruct (m w) as [[[]|e] w1]; [|discriminate].
  destruct (n w1) as [[[]|e] w2]; discriminate.
Qed.

(** C3 as stated fails: on a zero-match query the one message logged is
    "Found none when one was expected: No row was found for one()", and it
    does not hold the text of the query. *)
Lemma get_one_or_else_none_omits_query_text :
  let q := Journalist_query_filter_by_username "bob" in
  let after :=
    snd (get_one_or_else q recording_logger abort sample_world) in
  query_rows q sample_world = []
  /\ error_log after
     = ["Found none when one was expected: No row was found for one()"]
  /\ existsb (fun msg => str_contains msg (query_text q)) (error_log after)
     = false.
Proof. cbv zeta. repeat split; vm_compute; reflexivity. Qed.

(** C3, amended: with exactly one match [get_one_or_else] returns the
    record and logs nothing; with no match it logs "Found none when one
    was expected: No row was found for one()" (the exception text, not the
    query text) and then calls the failure method with 404; with two or
    more matches it logs a message that holds the query text and then
    calls the failure method with 500; on both failure paths no record is
    returned, in particular never the first match. *)
Theorem get_one_or_else_classifies {A} (q : Query A)
    (failure_method : Z -> M World unit) (w : World) :
  let run := get_one_or_else q recording_logger failure_method w in
  let unbound := raise (UnboundLocalError "return_value") in
  match query_rows q w with
  | [] =>
      run = (failure_method 404 ;;; unbound)
              (log_error
                 "Found none when one was expected: No row was found for one()"
                 w)
      /\ forall v : A, fst run <> Ok v
  | [row] => run = (Ok row, w)
  | first :: _ :: _ =>
      let msg :=
        "Found multiple while executing " +:+ query_text q
        +:+ " when one was expected: Multiple rows were found for one()" in
      run = (failure_method 500 ;;; unbound) (log_error msg w)
      /\ str_contains msg (query_text q) = true
      /\ forall v : A, fst run <> Ok v
  end.
Proof.
  cbv zeta. rewrite get_one_or_else_run.
  destruct (query_rows q w) as [|row [|second rest]].
  - split.
    + unfold bind at 1. rewrite recording_logger_run. reflexivity.
    + intros v. apply handlers_return_no_record.
  - reflexivity.
  - split; [|split].
    + unfold bind at 1. rewrite recording_logger_run. reflexivity.
    + apply str_contains_spliced.
    + intros v. apply handlers_return_no_record.
Qed.

Example get_one_or_else_one_row :
  get_one_or_else (Journalist_query_filter_by_username "alice")
    recording_logger abort sample_world
  = (Ok alice, sample_world).
Proof. reflexivity. Qed.

Example get_one_or_else_no_row_aborts :
  fst (get_one_or_else (Journalist_query_filter_by_username "bob")
         recording_logger abort sample_world)
  = Raise (HTTPException 404).
Proof. reflexivity. Qed.

Example get_one_or_else_two_rows_aborts :
  fst (get_one_or_else (Journalist_query_filter_by_username "alice")
         recording_logger abort duplicated_world)
  = Raise (HTTPException 500).
Proof. reflexivity. Qed.

(** C10: when the query yields zero or several matches and both the
    logger and the failure method return normally, [get_one_or_else]
    raises [UnboundLocalError] for [return_value] instead of returning a
    record; and whenever it does return a value, the query had exactly
    that one match. *)
Theorem get_one_or_else_unbound_return_value {A} (q : Query A)
    (logger : Logger) (failure_method : Z -> M World unit) (w : World) :
  (List.length (query_rows q w) <> 1%nat ->
   (forall msg w0, fst (logger_error logger msg w0) = Ok tt) ->
   (forall code w0, fst (failure_method code w0) = Ok tt) ->
   fst (get_one_or_else q logger failure_method w)
   = Raise (UnboundLocalError "return_value"))
  /\ (forall v : A,
        fst (get_one_or_else q logger failure_method w) = Ok v ->
        query_rows q w = [v]).
Proof.
  rewrite get_one_or_else_run.
  assert (Hfall : forall msg code,
            (forall msg w0, fst (logger_error logger msg w0) = Ok tt) ->
            (forall code w0, fst (failure_method code w0) = Ok tt) ->
            fst ((logger_error logger msg ;;; failure_method code ;;;
                  @raise World A (UnboundLocalError "return_value")) w)
            = Raise (UnboundLocalError "return_value")).
  { intros msg code Hlog Hfm. unfold bind.
    specialize (Hlog msg w).
    destruct (logger_error logger msg w) as [[[]|e] w1];
      [|discriminate Hlog].
    specialize (Hfm code w1).
    destruct (failure_method code w1) as [[[]|e] w2];
      [reflexivity|discriminate Hfm]. }
  destruct (query_rows q w) as [|row [|second rest]]; split.
  - intros _ Hlog Hfm. now apply Hfall.
  - intros v Hv. now apply handlers_return_no_record in Hv.
  - intros Hlen. now destruct Hlen.
  - intros v Hv. cbn [fst] in Hv. now injection Hv as ->.
  - intros _ Hlog Hfm. now apply Hfall.
  - intros v Hv. now apply handlers_return_no_record in Hv.
Qed.

Lemma get_one_or_else_unbound_return_value_witness :
  List.length
    (query_rows (Journalist_query_filter_by_username "alice")
       duplicated_world) <> 1%nat
  /\ fst (get_one_or_else (Journalist_query_filter_by_username "alice")
            recording_logger ignore_failure duplicated_world)
     = Raise (UnboundLocalError "return_value").
Proof.
  assert (Hlen : List.length
            (query_rows (Journalist_query_filter_by_username "alice")
               duplicated_world) <> 1%nat) by (vm_compute; discriminate).
  split; [exact Hlen|].
  apply (proj1 (get_one_or_else_unbound_return_value
                  (Journalist_query_filter_by_username "alice")
                  recording_logger ignore_failure duplicated_world)).
  - exact Hlen.
  - intros msg w0. reflexivity.
  - intros code w0. reflexivity.
Defined.

Example get_one_or_else_no_row_falls_through :
  fst (get_one_or_else (Journalist_query_filter_by_username "bob")
         recording_logger ignore_failure sample_world)
  = Raise (UnboundLocalError "return_value").
Proof. reflexivity. Qed.

(** * Further properties of the code *)

(** ** The slug *)

Lemma str_lower_app (a b : string) :
  str_lower (a +:+ b) = str_lower a +:+ str_lower b.
Proof. induction a as [|c a IH]; simpl; [reflexivity|now rewrite IH]. Qed.

Lemma str_replace_char_app (x y : ascii) (a b : string) :
  str_replace_char x y (a +:+ b)
  = str_replace_char x y a +:+ str_replace_char x y b.
Proof. induction a as [|c a IH]; simpl; [reflexivity|now rewrite IH]. Qed.

Lemma str_filter_app (p : ascii -> bool) (a b : string) :
  str_filter p (a +:+ b) = str_filter p a +:+ str_filter p b.
Proof.
  induction a as [|c a IH]; simpl; [reflexivity|].
  destruct (p c); simpl; now rewrite IH.
Qed.

(** What one character of the designation becomes before the filter. *)
Lemma slug_keeps_char (c : ascii) :
  char_in (if Ascii.eqb (ascii_lower c) " " then "_"%char else ascii_lower c)
          valid_chars
  = slug_keeps c.
Proof. destruct c as [[] [] [] [] [] [] [] []]; reflexivity. Qed.

Lemma journalist_filename_cons (self : Source) (c : ascii) (d : string) :
  journalist_filename (set_journalist_designation (String c d) self)
  = if slug_keeps c
    then String (if Ascii.eqb (ascii_lower c) " " then "_"%char
                 else ascii_lower c)
           (journalist_filename (set_journalist_designation d self))
    else journalist_filename (set_journalist_designation d self).
Proof.
  unfold journalist_filename. cbn [journalist_designation
    set_journalist_designation str_lower str_replace_char str_filter].
  now rewrite slug_keeps_char.
Qed.

(** X1: the slug of a designation made of two parts is the slug of the
    first part followed by the slug of the second. *)
Theorem journalist_filename_concat (self : Source) (a b : string) :
  journalist_filename (set_journalist_designation (a +:+ b) self)
  = journalist_filename (set_journalist_designation a self)
    +:+ journalist_filename (set_journalist_designation b self).
Proof.
  unfold journalist_filename. cbn [journalist_designation
    set_journalist_designation].
  now rewrite str_lower_app, str_replace_char_app, str_filter_app.
Qed.

(** X2: the slug is never longer than the designation. *)
Theorem journalist_filename_length (self : Source) :
  (String.length (journalist_filename self)
   <= String.length (journalist_designation self))%nat.
Proof.
  destruct self as [i f d fl pe ic subs cache].
  unfold journalist_filename. cbn [journalist_designation].
  induction d as [|c d IH]; [simpl; lia|].
  cbn [str_lower str_replace_char str_filter].
  match goal with |- context [if ?b then _ else _] => destruct b end;
    cbn [String.length]; lia.
Qed.

(** X3: designations that differ only in letter case, or only in
    spaces written as underscores, get the same slug. *)
Theorem journalist_filename_collisions (self : Source) (d : string) :
  journalist_filename (set_journalist_designation (str_lower d) self)
  = journalist_filename (set_journalist_designation d self)
  /\ journalist_filename
       (set_journalist_designation (str_replace_char " " "_" d) self)
     = journalist_filename (set_journalist_designation d self).
Proof.
  split.
  - induction d as [|c d IH]; [reflexivity|].
    cbn [str_lower]. rewrite !journalist_filename_cons, IH.
    clear. destruct c as [[] [] [] [] [] [] [] []]; reflexivity.
  - induction d as [|c d IH]; [reflexivity|].
    cbn [str_replace_char]. rewrite !journalist_filename_cons, IH.
    clear. destruct c as [[] [] [] [] [] [] [] []]; reflexivity.
Qed.

(** X4: the designations that are their own slug are exactly those made
    of a-z, 0-9, hyphen and underscore only. *)
Theorem journalist_filename_fixed_points (self : Source) :
  journalist_filename self = journalist_designation self
  <-> str_forall allowed_char (journalist_designation self) = true.
Proof.
  split.
  - intros H. rewrite <- H. apply journalist_filename_allowed.
  - intros H. unfold journalist_filename.
    rewrite (str_lower_fixed _ H), (str_replace_space_fixed _ H).
    apply str_filter_fixed.
    now rewrite (str_forall_ext _ _ _ char_in_valid_chars).
Qed.

(** X5: a designation that holds a letter, a digit, a hyphen, an
    underscore or a space never gets the empty slug: when the slug is
    empty, the designation holds none of them. *)
Theorem journalist_filename_empty_only_if (self : Source)
    (Hempty : journalist_filename self = EmptyString) :
  str_forall (fun c => negb (slug_keeps c)) (journalist_designation self)
  = true.
Proof.
  destruct self as [i f d fl pe ic subs cache].
  cbn [journalist_designation].
  induction d as [|c d IH]; [reflexivity|].
  change (mkSource i f (String c d) fl pe ic subs cache)
    with (set_journalist_designation (String c d)
            (mkSource i f d fl pe ic subs cache)) in Hempty.
  rewrite journalist_filename_cons in Hempty. cbn [str_forall].
  destruct (slug_keeps c); cbn [negb andb].
  - discriminate Hempty.
  - exact (IH Hempty).
Qed.

Lemma journalist_filename_empty_only_if_witness :
  str_forall (fun c => negb (slug_keeps c))
    (journalist_designation (Source_init None "?!."))
  = true.
Proof.
  apply (journalist_filename_empty_only_if (Source_init None "?!.")).
  reflexivity.
Defined.

Example journalist_filename_punctuation_only :
  journalist_filename (Source_init None "?!.") = EmptyString.
Proof. reflexivity. Qed.

(** ** The aggregate *)

Lemma count_endswith_nonneg (suffix : string) (subs : list Submission) :
  0 <= count_endswith suffix subs.
Proof. unfold count_endswith. lia. Qed.

Lemma count_endswith_both_le (subs : list Submission) :
  count_endswith "msg.gpg" subs + count_endswith "doc.zip.gpg" subs
  <= Z.of_nat (List.length subs).
Proof.
  induction subs as [|sub subs IH]; [reflexivity|].
  rewrite !count_endswith_cons. cbn [List.length].
  destruct (str_endswith (filename sub) "msg.gpg") eqn:Emsg.
  - rewrite (endswith_msg_not_doc _ Emsg). lia.
  - destruct (str_endswith (filename sub) "doc.zip.gpg"); lia.
Qed.

Lemma count_endswith_perm (suffix : string) (l l' : list Submission) :
  Permutation l l' -> count_endswith suffix l = count_endswith suffix l'.
Proof.
  induction 1 as [|x l l' _ IH|x y l|l l' l'' _ IH1 _ IH2].
  - reflexivity.
  - now rewrite !count_endswith_cons, IH.
  - rewrite !count_endswith_cons. lia.
  - now rewrite IH1.
Qed.

Lemma set_docs_msgs_count_same (self : Source) (c : gmap string Z) :
  docs_msgs_count self = Some c -> set_docs_msgs_count c self = self.
Proof. destruct self; simpl. now intros ->. Qed.

(** X6: on an instance without cached counts the returned dict has
    exactly the keys "messages" and "documents"; both counts are
    non-negative and together they do not exceed the number of
    submissions. *)
Theorem documents_messages_count_bounds (self : Source)
    (Hfresh : docs_msgs_count self = None) :
  exists (counts : gmap string Z) (m d : Z),
    fst (documents_messages_count self) = Ok counts
    /\ counts !! "messages" = Some m
    /\ counts !! "documents" = Some d
    /\ (forall k, k <> "messages" -> k <> "documents" -> counts !! k = None)
    /\ 0 <= m /\ 0 <= d
    /\ m + d <= Z.of_nat (List.length (submissions self)).
Proof.
  rewrite (documents_messages_count_first_call self Hfresh).
  eexists _, _, _. split; [reflexivity|].
  unfold counts_dict. split; [apply lookup_insert_eq|].
  split; [rewrite lookup_insert_ne by discriminate; apply lookup_insert_eq|].
  split.
  - intros k Hm Hd.
    rewrite lookup_insert_ne by congruence.
    rewrite lookup_insert_ne by congruence. apply lookup_empty.
  - split; [apply count_endswith_nonneg|].
    split; [apply count_endswith_nonneg|apply count_endswith_both_le].
Qed.

Lemma documents_messages_count_bounds_witness :
  docs_msgs_count (set_submissions sample_submissions sample_source) = None
  /\ exists (counts : gmap string Z) (m d : Z),
       fst (documents_messages_count
              (set_submissions sample_submissions sample_source)) = Ok counts
       /\ counts !! "messages" = Some m
       /\ counts !! "documents" = Some d
       /\ (forall k, k <> "messages" -> k <> "documents" ->
           counts !! k = None)
       /\ 0 <= m /\ 0 <= d
       /\ m + d <= Z.of_nat (List.length
                    (submissions
                       (set_submissions sample_submissions sample_source))).
Proof.
  split; [reflexivity|].
  apply (documents_messages_count_bounds
           (set_submissions sample_submissions sample_source)).
  reflexivity.
Defined.

(** X7: whenever [documents_messages_count] returns a dict, the
    instance afterwards caches exactly that dict and every other
    attribute is as before the call. *)
Theorem documents_messages_count_frame (self self' : Source)
    (counts : gmap string Z)
    (Hrun : documents_messages_count self = (Ok counts, self')) :
  self' = set_docs_msgs_count counts self
  /\ docs_msgs_count self' = Some counts
  /\ submissions self' = submissions self
  /\ journalist_designation self' = journalist_designation self.
Proof.
  assert (Hset : self' = set_docs_msgs_count counts self).
  { destruct (docs_msgs_count self) as [c|] eqn:Hc.
    - rewrite (documents_messages_count_cached self c Hc) in Hrun.
      injection Hrun as <- <-.
      now rewrite (set_docs_msgs_count_same self c Hc).
    - rewrite (documents_messages_count_first_call self Hc) in Hrun.
      now injection Hrun as <- <-. }
  rewrite Hset. repeat split; reflexivity.
Qed.

Lemma documents_messages_count_frame_witness :
  snd (documents_messages_count
         (set_submissions sample_submissions sample_source))
  = set_docs_msgs_count (counts_dict 1 1)
      (set_submissions sample_submissions sample_source).
Proof.
  apply (documents_messages_count_frame
           (set_submissions sample_submissions sample_source)
           (snd (documents_messages_count
                   (set_submissions sample_submissions sample_source)))
           (counts_dict 1 1)).
  reflexivity.
Defined.

(** X8: on an instance without cached counts the result does not depend
    on the order of the submissions. *)
Theorem documents_messages_count_order (self : Source)
    (subs' : list Submission)
    (Hfresh : docs_msgs_count self = None)
    (Hperm : Permutation (submissions self) subs') :
  fst (documents_messages_count (set_submissions subs' self))
  = fst (documents_messages_count self).
Proof.
  rewrite (documents_messages_count_first_call self Hfresh).
  rewrite documents_messages_count_first_call
    by (destruct self; exact Hfresh).
  cbn [fst submissions set_submissions].
  now rewrite <- !(count_endswith_perm _ _ _ Hperm).
Qed.

Lemma documents_messages_count_order_witness :
  fst (documents_messages_count
         (set_submissions (List.rev sample_submissions)
            (set_submissions sample_submissions sample_source)))
  = fst (documents_messages_count
           (set_submissions sample_submissions sample_source)).
Proof.
  apply (documents_messages_count_order
           (set_submissions sample_submissions sample_source)
           (List.rev sample_submissions)).
  - reflexivity.
  - apply Permutation_rev.
Defined.

(** ** Construction and login *)

Lemma filter_username_free (name : string) (rows : list Journalist) :
  username_free name rows = true
  <-> List.filter (fun j => String.eqb (username j) name) rows = [].
Proof.
  unfold username_free.
  induction rows as [|j rows IH]; cbn [forallb List.filter];
    [split; reflexivity|].
  destruct (String.eqb (username j) name); cbn [negb andb].
  - split; discriminate.
  - exact IH.
Qed.

Lemma filter_username_absent (name : string) (rows : list Journalist) :
  ~ List.In name (List.map username rows) ->
  List.filter (fun j => String.eqb (username j) name) rows = [].
Proof.
  induction rows as [|j rows IH]; cbn [List.map List.filter List.In];
    [reflexivity|].
  intros Hnot. destruct (String.eqb (username j) name) eqn:E.
  - apply String.eqb_eq in E. destruct Hnot. now left.
  - apply IH. intros Hin. apply Hnot. now right.
Qed.

Lemma filter_username_unique (name : string) (rows : list Journalist) :
  List.NoDup (List.map username rows) ->
  (List.length
     (List.filter (fun j => String.eqb (username j) name) rows) <= 1)%nat.
Proof.
  induction rows as [|j rows IH]; cbn [List.map List.filter];
    [simpl; lia|].
  intros Hnd. inversion Hnd as [|x l Hnotin Hrest]; subst.
  destruct (String.eqb (username j) name) eqn:E.
  - apply String.eqb_eq in E. subst name.
    rewrite (filter_username_absent _ _ Hnotin). simpl. lia.
  - exact (IH Hrest).
Qed.

Lemma filter_username_sound (name : string) (rows : list Journalist)
    (u : Journalist) :
  List.In u (List.filter (fun j => String.eqb (username j) name) rows) ->
  List.In u rows /\ username u = name.
Proof.
  intros [Hin Heq]%List.filter_In. split; [exact Hin|].
  now apply String.eqb_eq.
Qed.

(** X9: whenever constructing a Journalist returns, the record has a
    32-byte salt and no id or timestamp yet, and neither the journalists
    table nor the error log was touched: the constructor does not store
    the record, and [login] answers after the construction what it
    answered before it. *)
Theorem Journalist_init_frame
    (scrypt_hash : string -> string -> Z -> Z -> Z -> string)
    (entropy : nat -> ascii)
    (name password : string) (admin : bool) (w w' : World)
    (fresh : Journalist) (name' password' : string)
    (Hinit : Journalist_init scrypt_hash entropy name password admin w
             = (Ok fresh, w')) :
  String.length (pw_salt fresh) = 32%nat
  /\ journalist_id fresh = None
  /\ created_on fresh = None /\ last_access fresh = None
  /\ journalists w' = journalists w /\ error_log w' = error_log w
  /\ login scrypt_hash name' password' w'
     = (fst (login scrypt_hash name' password' w), w').
Proof.
  rewrite Journalist_init_run in Hinit.
  apply run_ok_inv in Hinit as [-> ->].
  cbn [pw_salt journalist_id created_on last_access journalists error_log].
  rewrite entropy_bytes_length, !login_run.
  cbn [fst journalists]. repeat split; reflexivity.
Qed.

Lemma Journalist_init_frame_witness :
  let built :=
    Journalist_init sample_scrypt sample_entropy "carol" "s3cret" false
      sample_world in
  login sample_scrypt "alice" "correct" (snd built)
  = (fst (login sample_scrypt "alice" "correct" sample_world), snd built).
Proof.
  cbv zeta.
  apply (Journalist_init_frame sample_scrypt sample_entropy
           "carol" "s3cret" false sample_world
           (snd (Journalist_init sample_scrypt sample_entropy
                   "carol" "s3cret" false sample_world))
           (mkJournalist None "carol"
              (entropy_bytes sample_entropy 0 32)
              (_scrypt_hash sample_scrypt "s3cret"
                 (entropy_bytes sample_entropy 0 32) None)
              false None None)
           "alice" "correct").
  reflexivity.
Defined.

(** X10: when [login] returns a user, that user is a row of the
    journalists table, carries the requested username, and the password
    verifies against its salt and hash. *)
Theorem login_sound
    (scrypt_hash : string -> string -> Z -> Z -> Z -> string)
    (name password : string) (w : World) (u : Journalist)
    (Hlogin : fst (login scrypt_hash name password w) = Ok (ReturnUser u)) :
  List.In u (journalists w)
  /\ username u = name
  /\ valid_password scrypt_hash u password = true.
Proof.
  rewrite login_run in Hlogin. cbn [fst] in Hlogin.
  destruct (List.filter _ (journalists w)) as [|user [|second rest]] eqn:Hf;
    try discriminate Hlogin.
  destruct (valid_password scrypt_hash user password) eqn:Hv;
    [|discriminate Hlogin].
  injection Hlogin as ->.
  destruct (filter_username_sound name (journalists w) u) as [Hin Hname].
  { rewrite Hf. now left. }
  auto.
Qed.

Lemma login_sound_witness :
  List.In alice (journalists sample_world)
  /\ username alice = "alice"
  /\ valid_password sample_scrypt alice "correct" = true.
Proof.
  apply (login_sound sample_scrypt "alice" "correct" sample_world alice).
  reflexivity.
Defined.

(** X11: when the usernames of the table are pairwise distinct, as the
    unique column demands, the lookup of [login] finds at most one row:
    [login] never ends in [MultipleResultsFound]. *)
Theorem login_unique_no_conflict
    (scrypt_hash : string -> string -> Z -> Z -> Z -> string)
    (name password : string) (w : World) (msg : string)
    (Hunique : List.NoDup (List.map username (journalists w))) :
  (List.length
     (query_rows (Journalist_query_filter_by_username name) w) <= 1)%nat
  /\ fst (login scrypt_hash name password w)
     <> Raise (MultipleResultsFound msg).
Proof.
  pose proof (filter_username_unique name _ Hunique) as Hlen.
  split; [exact Hlen|].
  rewrite login_run. cbn [fst].
  destruct (List.filter _ (journalists w)) as [|user [|second rest]].
  - discriminate.
  - destruct (valid_password scrypt_hash user password); discriminate.
  - simpl in Hlen. lia.
Qed.

Lemma login_unique_no_conflict_witness :
  fst (login sample_scrypt "alice" "wrong" sample_world)
  <> Raise (MultipleResultsFound "Multiple rows were found for one()").
Proof.
  apply (login_unique_no_conflict sample_scrypt "alice" "wrong" sample_world
           "Multiple rows were found for one()").
  repeat constructor; simpl; tauto.
Defined.

(** X12: [login] returns [None] exactly when no row of the table carries
    the username; a wrong password for a known username never gives
    [None]. *)
Theorem login_none_iff_unknown
    (scrypt_hash : string -> string -> Z -> Z -> Z -> string)
    (name password : string) (w : World) :
  fst (login scrypt_hash name password w) = Ok ReturnNone
  <-> username_free name (journalists w) = true.
Proof.
  rewrite filter_username_free, login_run. cbn [fst].
  destruct (List.filter _ (journalists w)) as [|user [|second rest]].
  - split; reflexivity.
  - destruct (valid_password scrypt_hash user password);
      split; discriminate.
  - split; discriminate.
Qed.

(** X13: once a Journalist was constructed with a username and a
    password and then inserted into a table that held no row of that
    username, [login] with that password returns the stored row (the
    constructed record with its id and [created_on] assigned), and
    returns [False] for any password whose hash under the stored salt
    differs from the stored hash. *)
Theorem construct_store_login
    (scrypt_hash : string -> string -> Z -> Z -> Z -> string)
    (entropy : nat -> ascii)
    (name password wrong : string) (admin : bool) (w w' : World)
    (fresh : Journalist) (new_id now : Z)
    (Hfree : username_free name (journalists w) = true)
    (Hinit : Journalist_init scrypt_hash entropy name password admin w
             = (Ok fresh, w')) :
  fst (login scrypt_hash name password (with_journalist new_id now fresh w'))
  = Ok (ReturnUser (flushed new_id now fresh))
  /\ journalist_id (flushed new_id now fresh) = Some new_id
  /\ created_on (flushed new_id now fresh) = Some now
  /\ (_scrypt_hash scrypt_hash wrong (pw_salt fresh) None <> pw_hash fresh ->
      fst (login scrypt_hash name wrong (with_journalist new_id now fresh w'))
      = Ok ReturnFalse).
Proof.
  rewrite Journalist_init_run in Hinit.
  apply run_ok_inv in Hinit as [-> ->].
  apply filter_username_free in Hfree.
  rewrite !login_run. cbn [fst with_journalist journalists].
  rewrite List.filter_app, Hfree.
  cbn [List.filter username flushed app journalist_id created_on
       pw_salt pw_hash].
  rewrite String.eqb_refl.
  split; [|split; [reflexivity|split; [reflexivity|]]].
  - replace (valid_password scrypt_hash _ password) with true; [reflexivity|].
    symmetry. apply valid_password_true_iff. reflexivity.
  - intros Hdiff.
    destruct (valid_password scrypt_hash _ wrong) eqn:E; [|reflexivity].
    apply valid_password_true_iff in E. contradiction.
Qed.

Lemma construct_store_login_witness :
  let built :=
    Journalist_init sample_scrypt sample_entropy "carol" "s3cret" false
      sample_world in
  match fst built with
  | Ok carol =>
      fst (login sample_scrypt "carol" "s3cret"
             (with_journalist 2 1000 carol (snd built)))
      = Ok (ReturnUser (flushed 2 1000 carol))
  | Raise _ => False
  end.
Proof.
  cbv zeta.
  apply (construct_store_login sample_scrypt sample_entropy
           "carol" "s3cret" "guess" false sample_world
           (snd (Journalist_init sample_scrypt sample_entropy
                   "carol" "s3cret" false sample_world))
           (mkJournalist None "carol"
              (entropy_bytes sample_entropy 0 32)
              (_scrypt_hash sample_scrypt "s3cret"
                 (entropy_bytes sample_entropy 0 32) None)
              false None None)
           2 1000);
    reflexivity.
Defined.

(** ** The single-result helper with its usual collaborators *)

(** X14: with a failure method that aborts, [get_one_or_else] ends in
    the row, in the abort with 404 or in the abort with 500, never in
    [UnboundLocalError]; a failure appends exactly one message to the
    error log, a success none, and the journalists table is untouched. *)
Theorem get_one_or_else_abort {A} (q : Query A) (w : World) :
  let run := get_one_or_else q recording_logger abort w in
  journalists (snd run) = journalists w
  /\ match query_rows q w with
     | [] =>
         fst run = Raise (HTTPException 404)
         /\ error_log (snd run)
            = error_log w
              ++ ["Found none when one was expected: No row was found for one()"]
     | [row] => run = (Ok row, w)
     | _ :: _ :: _ =>
         fst run = Raise (HTTPException 500)
         /\ error_log (snd run)
            = error_log w
              ++ ["Found multiple while executing " +:+ query_text q
                  +:+ " when one was expected: Multiple rows were found for one()"]
     end.
Proof.
  cbv zeta. rewrite get_one_or_else_run.
  destruct (query_rows q w) as [|row [|second rest]].
  - unfold bind at 1. rewrite recording_logger_run. auto.
  - auto.
  - unfold bind at 1. rewrite recording_logger_run. auto.
Qed.

(** X15: when the query does not yield exactly one row and the logger's
    [error] raises, that exception leaves [get_one_or_else] and the
    failure method is never called: the outcome is the same for every
    failure method. *)
Theorem get_one_or_else_logger_raises {A} (q : Query A) (logger : Logger)
    (failure_method : Z -> M World unit) (w w1 : World) (e : exn)
    (Hrows : List.length (query_rows q w) <> 1%nat)
    (Hlog : forall msg, logger_error logger msg w = (Raise e, w1)) :
  get_one_or_else q logger failure_method w = (Raise e, w1).
Proof.
  rewrite get_one_or_else_run.
  destruct (query_rows q w) as [|row [|second rest]].
  - unfold bind at 1. now rewrite Hlog.
  - now destruct Hrows.
  - unfold bind at 1. now rewrite Hlog.
Qed.

Lemma get_one_or_else_logger_raises_witness :
  get_one_or_else (Journalist_query_filter_by_username "bob")
    (failing_logger (KeyError "handler")) ignore_failure sample_world
  = (Raise (KeyError "handler"), sample_world).
Proof.
  apply (get_one_or_else_logger_raises
           (Journalist_query_filter_by_username "bob")
           (failing_logger (KeyError "handler")) ignore_failure
           sample_world sample_world (KeyError "handler")).
  - vm_compute. discriminate.
  - intros msg. reflexivity.
Defined.

(** ** SourceStar *)

Lemma opt_int_eq_sym (a b : option Z) : opt_int_eq a b = opt_int_eq b a.
Proof.
  destruct a as [x|], b as [y|]; simpl; try reflexivity. apply Z.eqb_sym.
Qed.

(** X16: on SourceStar instances [__eq__] is an equivalence: every
    instance equals itself (also one whose id is still [None]), the
    answer does not depend on the side an instance stands on, and two
    instances equal to a third are equal. *)
Theorem SourceStar_eq_equivalence (a b c : SourceStar) :
  SourceStar_eq a (ObjSourceStar a) = CmpBool true
  /\ SourceStar_eq a (ObjSourceStar b) = SourceStar_eq b (ObjSourceStar a)
  /\ (SourceStar_eq a (ObjSourceStar b) = CmpBool true ->
      SourceStar_eq b (ObjSourceStar c) = CmpBool true ->
      SourceStar_eq a (ObjSourceStar c) = CmpBool true).
Proof.
  assert (Hiff : forall x y,
            SourceStar_eq x (ObjSourceStar y) = CmpBool true
            <-> star_source_id x = star_source_id y
                /\ star_id x = star_id y /\ starred x = starred y).
  { intros x y. cbn [SourceStar_eq]. split.
    - intros H. injection H as H.
      apply andb_prop in H as [H Hst]. apply andb_prop in H as [Hsrc Hid].
      apply opt_int_eq_true in Hsrc. apply opt_int_eq_true in Hid.
      apply Bool.eqb_prop in Hst. auto.
    - intros (Hsrc & Hid & Hst). rewrite Hsrc, Hid, Hst.
      rewrite Bool.eqb_reflx.
      now rewrite !(proj2 (opt_int_eq_true _ _) eq_refl). }
  split; [apply Hiff; auto|]. split.
  - cbn [SourceStar_eq].
    rewrite (opt_int_eq_sym (star_source_id a)), (opt_int_eq_sym (star_id a)).
    f_equal. f_equal. now destruct (starred a), (starred b).
  - intros Hab Hbc. apply Hiff in Hab as (H1 & H2 & H3).
    apply Hiff in Hbc as (H4 & H5 & H6). apply Hiff.
    repeat split; congruence.
Qed.

(** X17: two SourceStar instances as their constructor leaves them (no
    id yet) are equal exactly when the ids of their sources and their
    starred flags agree; so stars built for two sources that have no id
    yet compare equal whenever the flags agree. *)
Theorem SourceStar_init_eq (s s' : Source) (b b' : bool) :
  (SourceStar_eq (SourceStar_init s b) (ObjSourceStar (SourceStar_init s' b'))
   = CmpBool true
   <-> src_id s = src_id s' /\ b = b')
  /\ (src_id s = None -> src_id s' = None ->
      SourceStar_eq (SourceStar_init s b) (ObjSourceStar (SourceStar_init s' b))
      = CmpBool true).
Proof.
  assert (Hiff : SourceStar_eq (SourceStar_init s b)
                   (ObjSourceStar (SourceStar_init s' b')) = CmpBool true
                 <-> src_id s = src_id s' /\ b = b').
  { cbn [SourceStar_eq SourceStar_init star_source_id star_id starred
         opt_int_eq]. rewrite andb_true_r. split.
    - intros H. injection H as H. apply andb_prop in H as [Hsrc Hst].
      apply opt_int_eq_true in Hsrc. apply Bool.eqb_prop in Hst. auto.
    - intros [Hsrc ->]. rewrite Hsrc, Bool.eqb_reflx.
      now rewrite (proj2 (opt_int_eq_true _ _) eq_refl). }
  split; [exact Hiff|].
  intros Hs Hs'. cbn [SourceStar_eq SourceStar_init star_source_id star_id
    starred]. rewrite Hs, Hs', Bool.eqb_reflx. reflexivity.
Qed.

Lemma SourceStar_init_eq_witness :
  SourceStar_eq (SourceStar_init (Source_init (Some "one") "first") true)
    (ObjSourceStar
       (SourceStar_init (Source_init (Some "two") "second") true))
  = CmpBool true.
Proof.
  apply (proj2 (SourceStar_init_eq (Source_init (Some "one") "first")
                  (Source_init (Some "two") "second") true true));
    reflexivity.
Defined.

(** ** Journalist.__repr__ *)

Lemma append_assoc (a b c : string) : (a +:+ b) +:+ c = a +:+ b +:+ c.
Proof.
  induction a as [|x a IH]; [reflexivity|].
  change (String x ((a +:+ b) +:+ c) = String x (a +:+ b +:+ c)).
  now rewrite IH.
Qed.

(** X18: the representation does not tell an administrator from an
    ordinary account whose username ends in " [admin]": both print the
    same text. *)
Theorem Journalist_repr_ambiguous (admin plain : Journalist) :
  is_admin admin = true ->
  is_admin plain = false ->
  username plain = username admin +:+ " [admin]" ->
  Journalist_repr plain = Journalist_repr admin.
Proof.
  intros Ha Hp Hname. unfold Journalist_repr.
  rewrite Ha, Hp, Hname.
  change (EmptyString +:+ ">") with ">".
  now rewrite append_assoc.
Qed.

Lemma Journalist_repr_ambiguous_witness :
  Journalist_repr
    (mkJournalist (Some 3) "alice [admin]" "89ab" "hash" false None None)
  = Journalist_repr alice_again.
Proof.
  apply (Journalist_repr_ambiguous alice_again
           (mkJournalist (Some 3) "alice [admin]" "89ab" "hash" false
              None None));
    reflexivity.
Defined.
